(** * Hub registration manager: startup wiring of the approval pipeline

    Shallow embedding of [pkg/registration/hub/manager.go].  The function
    [RunControllerManager] is straight-line effectful code: it builds
    clients, reads feature gates, probes the cluster for the CSR API,
    constructs controllers and starts each of them in a goroutine.  It is
    embedded in a small trace-and-error monad, so that what was called,
    in which order and how often, can be stated about the returned trace. *)

From Stdlib Require Import ZArith QArith Strings.Byte.
From stdpp Require Import base decidable list strings gmap.

Local Open Scope Z_scope.

(** ** Feature gates ([open-cluster-management.io/api/feature]) *)

Module features.

Inductive Feature : Set :=
| ManagedClusterAutoApproval
| V1beta1CSRAPICompatibility
| DefaultClusterSet.

#[global] Instance Feature_eq_dec : EqDecision Feature.
Proof. solve_decision. Defined.

End features.

(** ** Errors

    Go [error] values.  [Wrapf] is [errors.Wrapf] of [github.com/pkg/errors]:
    it keeps the cause and prefixes the message. *)

Module errors.

Inductive error : Type :=
| New (msg : string)
| Wrapf (cause : error) (msg : string).

Fixpoint Error (e : error) : string :=
  match e with
  | New msg => msg
  | Wrapf cause msg => msg +:+ ": " +:+ Error cause
  end.

Fixpoint Cause (e : error) : error :=
  match e with
  | New msg => New msg
  | Wrapf cause _ => Cause cause
  end.

End errors.

(** ** The [csr] package as seen from the manager

    The manager only calls constructors of this package; the values they
    return are kept as data. *)

Module csr.

(** The two request schemas: [certificates/v1] and [certificates/v1beta1]. *)
Inductive api : Set := V1 | V1beta1.

#[global] Instance api_eq_dec : EqDecision api.
Proof. solve_decision. Defined.

(** [csr.Reconciler] values built by the manager. *)
Inductive Reconciler : Type :=
| NewCSRRenewalReconciler
| NewCSRBootstrapReconciler (approvalUsers : list string).

#[global] Instance Reconciler_eq_dec : EqDecision Reconciler.
Proof. solve_decision. Defined.

(** [csr.NewCSRV1Approver] / [csr.NewCSRV1beta1Approver]. *)
Inductive Approver : Set := NewCSRV1Approver | NewCSRV1beta1Approver.

(** The arguments of [csr.NewCSRApprovingController[T]]. *)
Record ApprovingController : Type := NewCSRApprovingController {
  csrType : api;          (* the type parameter T *)
  csrInformer : api;      (* kubeInformers.Certificates().<api>() informer *)
  csrLister : api;        (* kubeInformers.Certificates().<api>() lister *)
  csrApprover : Approver;
  csrReconcilers : list Reconciler
}.

(** *** Requests, decisions and policies

    The reconcilers and the approving controller themselves live in
    files of the [csr] package that the manager imports; their behaviour
    is written down here from the design document. *)

(** Modelled from the spec: the key usages a request can ask for (the
    [csr] package's request type is not part of the manager's file). *)
Inductive KeyUsage : Set :=
| UsageDigitalSignature
| UsageKeyEncipherment
| UsageServerAuth
| UsageClientAuth.

#[global] Instance KeyUsage_eq_dec : EqDecision KeyUsage.
Proof. solve_decision. Defined.

#[global] Instance KeyUsage_countable : Countable KeyUsage.
Proof.
  refine (inj_countable'
            (fun u => match u with
                      | UsageDigitalSignature => 0%nat
                      | UsageKeyEncipherment => 1%nat
                      | UsageServerAuth => 2%nat
                      | UsageClientAuth => 3%nat
                      end)
            (fun n => match n with
                      | 0%nat => UsageDigitalSignature
                      | 1%nat => UsageKeyEncipherment
                      | 2%nat => UsageServerAuth
                      | _ => UsageClientAuth
                      end) _).
  intros []; reflexivity.
Defined.

(** Modelled from the spec: decision state of a request; [Pending] is
    the only state a request can leave. *)
Inductive DecisionState : Set := Pending | Approved | Denied.

#[global] Instance DecisionState_eq_dec : EqDecision DecisionState.
Proof. solve_decision. Defined.

(** Modelled from the spec: the RegistrationRequest entity. *)
Record RegistrationRequest : Type := {
  requester : string;
  usages : gset KeyUsage;
  organization : list string;
  payload : list Byte.byte;
  decision : DecisionState;
  variant : api
}.

(** Modelled from the spec: the outcome of one policy evaluation. *)
Inductive Outcome : Set := Approve | Deny | NoOpinion.

#[global] Instance Outcome_eq_dec : EqDecision Outcome.
Proof. solve_decision. Defined.

(** Modelled from the spec: the ApprovalDecision entity. *)
Record ApprovalDecision : Type := {
  outcome : Outcome;
  reason : string;
  issuer : string
}.

(** Modelled from the spec: a granted or expected profile, the
    organization claims (ordered) and the key usages (a set). *)
Record Profile : Type := {
  profileOrganization : list string;
  profileUsages : gset KeyUsage
}.

(** Modelled from the spec: exact match of a request with a profile. *)
Definition matches (p : Profile) (r : RegistrationRequest) : bool :=
  bool_decide (organization r = profileOrganization p)
  && bool_decide (usages r = profileUsages p).

(** Modelled from the spec: what the policies read besides the request,
    the profile granted to each accepted identity and the expected
    spoke-bootstrap profile. *)
Record Hub : Type := {
  granted : gmap string Profile;
  bootstrapProfile : Profile
}.

(** Modelled from the spec: the Renewal Approval Policy (section 4.3),
    which is the reconciler of [NewCSRRenewalReconciler]. *)
Definition renewal (h : Hub) (r : RegistrationRequest) : ApprovalDecision :=
  match granted h !! requester r with
  | Some p =>
      if matches p r
      then {| outcome := Approve; reason := "AutoApprovedByHubCSRApprovingController";
              issuer := "renewal" |}
      else {| outcome := NoOpinion; reason := ""; issuer := "renewal" |}
  | None => {| outcome := NoOpinion; reason := ""; issuer := "renewal" |}
  end.

(** Modelled from the spec: the Bootstrap Auto-Approval Policy (section
    4.4), which is the reconciler of [NewCSRBootstrapReconciler]. *)
Definition bootstrap (approvalUsers : list string) (h : Hub)
    (r : RegistrationRequest) : ApprovalDecision :=
  if bool_decide (requester r ∈ approvalUsers) && matches (bootstrapProfile h) r
  then {| outcome := Approve; reason := "AutoApprovedByHubCSRApprovingController";
          issuer := "bootstrap" |}
  else {| outcome := NoOpinion; reason := ""; issuer := "bootstrap" |}.

(** Modelled from the spec: the one evaluation contract all policies
    share, [evaluate(request) -> Outcome]. *)
Definition evaluate (h : Hub) (p : Reconciler) (r : RegistrationRequest)
  : ApprovalDecision :=
  match p with
  | NewCSRRenewalReconciler => renewal h r
  | NewCSRBootstrapReconciler approvalUsers => bootstrap approvalUsers h r
  end.

(** Modelled from the spec: the persisted effect of the dispatcher, the
    decision written onto a request. *)
Inductive Write : Type :=
| UpdateDecision (requester : string) (s : DecisionState) (reason : string).

Definition Policy : Type := RegistrationRequest -> ApprovalDecision.

(** Modelled from the spec: the policies are consulted in order, up to
    the first definitive Approve or Deny (section 4.2). *)
Fixpoint consult (chain : list Policy) (r : RegistrationRequest)
  : ApprovalDecision :=
  match chain with
  | [] => {| outcome := NoOpinion; reason := ""; issuer := "" |}
  | p :: chain' =>
      let d := p r in
      match outcome d with
      | NoOpinion => consult chain' r
      | _ => d
      end
  end.

Definition decide_as (s : DecisionState) (r : RegistrationRequest)
  : RegistrationRequest :=
  {| requester := requester r; usages := usages r;
     organization := organization r; payload := payload r;
     decision := s; variant := variant r |}.

(** Modelled from the spec: one run of the Approval Chain Dispatcher on a
    request (section 4.2).  The write is conditional on the current
    decision state; it returns the request as stored afterwards and the
    writes issued. *)
Definition dispatch (chain : list Policy) (r : RegistrationRequest)
  : RegistrationRequest * list Write :=
  match decision r with
  | Pending =>
      let d := consult chain r in
      match outcome d with
      | Approve =>
          (decide_as Approved r, [UpdateDecision (requester r) Approved (reason d)])
      | Deny =>
          (decide_as Denied r, [UpdateDecision (requester r) Denied (reason d)])
      | NoOpinion => (r, [])
      end
  | _ => (r, [])
  end.

(** Modelled from the spec: a request is delivered to the dispatcher
    again and again (watch notifications, resyncs, retries), each time
    with the policies as they answer at that moment.  The result is the
    stored request, every write issued and the decision state seen after
    each delivery. *)
Fixpoint deliver (chains : list (list Policy)) (r : RegistrationRequest)
  : RegistrationRequest * list Write * list DecisionState :=
  match chains with
  | [] => (r, [], [])
  | chain :: chains' =>
      let '(r1, w1) := dispatch chain r in
      let '(r2, w2, h2) := deliver chains' r1 in
      (r2, w1 ++ w2, decision r1 :: h2)
  end.

End csr.

(** ** The liveness state machine of the [lease] package *)

Module lease.

(** Modelled from the spec: availability of a spoke cluster. *)
Inductive Availability : Set := Unknown | Available | Unreachable.

#[global] Instance Availability_eq_dec : EqDecision Availability.
Proof. solve_decision. Defined.

(** Modelled from the spec: a taint, identified by its key in the taint
    set of its cluster. *)
Inductive Effect : Set := NoSelect | PreferNoSelect.

Record Taint : Type := {
  effect : Effect;
  appliedAt : Z
}.

(** Modelled from the spec: the SpokeCluster entity, as far as the
    liveness machine owns it. *)
Record SpokeCluster : Type := {
  availability : Availability;
  taints : gmap string Taint
}.

(** Modelled from the spec: the HeartbeatRecord entity; times in seconds. *)
Record HeartbeatRecord : Type := {
  lastRenewTime : Z;
  renewInterval : Z
}.

Inductive Write : Type :=
| SetAvailability (a : Availability)
| AddTaint (key : string)
| RemoveTaint (key : string).

Definition unreachableTaint : string :=
  "cluster.open-cluster-management.io/unreachable".

(** Modelled from the spec: the staleness threshold is a configured
    multiple of the heartbeat interval, five times in the example. *)
Definition threshold (R : Z) : Z := 5 * R.

(** Modelled from the spec: one evaluation of the Heartbeat/Taint State
    Machine for a heartbeat of the given age (section 4.5), with the
    threshold [T]; taints are applied and removed only when needed. *)
Definition evaluate (T age now : Z) (c : SpokeCluster)
  : SpokeCluster * list Write :=
  if T <? age then
    match availability c with
    | Unreachable => (c, [])
    | _ =>
        match taints c !! unreachableTaint with
        | Some _ =>
            ({| availability := Unreachable; taints := taints c |},
             [SetAvailability Unreachable])
        | None =>
            ({| availability := Unreachable;
                taints := <[unreachableTaint :=
                              {| effect := NoSelect; appliedAt := now |}]>
                            (taints c) |},
             [SetAvailability Unreachable; AddTaint unreachableTaint])
        end
    end
  else
    match availability c with
    | Unreachable =>
        match taints c !! unreachableTaint with
        | Some _ =>
            ({| availability := Available;
                taints := delete unreachableTaint (taints c) |},
             [SetAvailability Available; RemoveTaint unreachableTaint])
        | None =>
            ({| availability := Available; taints := taints c |},
             [SetAvailability Available])
        end
    | Unknown =>
        ({| availability := Available; taints := taints c |},
         [SetAvailability Available])
    | Available => (c, [])
    end.

(** Modelled from the spec: a reconciliation computes the age of the
    heartbeat, [now - lastRenewTime], and evaluates it. *)
Definition reconcile (T now : Z) (hb : HeartbeatRecord) (c : SpokeCluster)
  : SpokeCluster * list Write :=
  evaluate T (now - lastRenewTime hb) now c.

(** The availability after each of a series of evaluations. *)
Fixpoint observe (T : Z) (ages : list Z) (c : SpokeCluster)
  : list Availability :=
  match ages with
  | [] => []
  | age :: ages' =>
      let c' := fst (evaluate T age age c) in
      availability c' :: observe T ages' c'
  end.

End lease.

(** ** Worker pools of [factory.Controller] *)

Module factory.

(** [factory.Controller.Run(ctx, workers)] is library code: it starts
    [workers] goroutines, each of which takes one key off the work queue
    and reconciles it before it takes the next.  A pool is the queue and
    the keys under reconciliation, driven by what happens to it. *)
Record Pool : Type := {
  queue : list string;
  inFlight : list string
}.

Inductive Action : Type :=
| Enqueue (key : string)   (* an informer event or a resync *)
| Take                     (* an idle worker picks the next key *)
| Finish (key : string).   (* a worker returns from its reconciliation *)

Fixpoint removeOne (key : string) (l : list string) : list string :=
  match l with
  | [] => []
  | k :: l' => if decide (k = key) then l' else k :: removeOne key l'
  end.

Definition step (workers : Z) (p : Pool) (a : Action) : Pool :=
  match a with
  | Enqueue key => {| queue := queue p ++ [key]; inFlight := inFlight p |}
  | Take =>
      match queue p with
      | key :: q =>
          if Z.of_nat (length (inFlight p)) <? workers
          then {| queue := q; inFlight := key :: inFlight p |}
          else p
      | [] => p
      end
  | Finish key => {| queue := queue p; inFlight := removeOne key (inFlight p) |}
  end.

Definition Run (workers : Z) (actions : list Action) : Pool :=
  fold_left (step workers) actions {| queue := []; inFlight := [] |}.

End factory.

(** ** The manager *)

Module hub.

Import features errors.

(** [time.Duration] is a count of nanoseconds. *)
Definition Minute : Z := 60 * 1000000000.

Definition ResyncInterval : Z := 5 * Minute.

(** [HubManagerOptions] *)
Record HubManagerOptions : Type := {
  ClusterAutoApprovalUsers : list string
}.

Definition NewHubManagerOptions : HubManagerOptions :=
  {| ClusterAutoApprovalUsers := [] |}.

(** The two fields of [rest.Config] the manager touches.  [QPS] is a
    [float32] in Go; its finite values are rationals. *)
Record Config : Type := {
  QPS : Q;
  Burst : Z
}.

Inductive Client : Set := KubeClient | ClusterClient | WorkClient | AddOnClient.

Inductive InformerFactory : Set :=
| ClusterInformers | WorkInformers | KubeInformers | AddOnInformers.

(** Every controller the manager can build. *)
Inductive Controller : Type :=
| ManagedClusterController
| TaintController
| CSRApprovingController (c : csr.ApprovingController)
| ClusterLeaseController
| FinalizeController
| ManagedClusterSetController
| ManagedClusterSetBindingController
| ManagedClusterClusterroleController
| ManagedClusterAddOnHealthCheckController
| AddOnFeatureDiscoveryController
| DefaultManagedClusterSetController
| GlobalManagedClusterSetController.

(** What [helpers.IsCSRSupported] answers: the pair
    [(v1CSRSupported, v1beta1CSRSupported)] or an error. *)
Inductive Discovery : Type :=
| Supported (v1CSRSupported v1beta1CSRSupported : bool)
| DiscoveryFailed (err : error).

(** The collaborators of one process.  [IsCSRSupported n] is the answer
    the cluster gives to the [n]-th discovery call of the process (counted
    from 0), so a second call may well succeed where the first failed. *)
Record Environment : Type := {
  KubeConfig : Config;
  Enabled : Feature -> bool;
  NewForConfig : Client -> Config -> option error;
  IsCSRSupported : nat -> Discovery
}.

(** Observable actions, in program order. *)
Inductive Event : Type :=
| EvEnabled (f : Feature)
| EvNewForConfig (c : Client) (cfg : Config)
| EvNewSharedInformerFactory (i : InformerFactory) (resync : Z)
| EvNewController (c : Controller)
| EvIsCSRSupported
| EvInfo (msg : string)
| EvGoStart (i : InformerFactory)
| EvGoRun (c : Controller) (workers : Z)
| EvCtxDone.

(** How a call ends: it returns a value, returns a Go error, or panics
    (a method call on a nil interface). *)
Inductive Result (A : Type) : Type :=
| Return (a : A)
| Fail (err : error)
| Panic.

Arguments Return {A} a.
Arguments Fail {A} err.
Arguments Panic {A}.

Definition M (A : Type) : Type := list Event -> Result A * list Event.

Definition ret {A} (a : A) : M A := fun tr => (Return a, tr).

Definition bind {A B} (c : M A) (k : A -> M B) : M B :=
  fun tr =>
    match c tr with
    | (Return a, tr') => k a tr'
    | (Fail e, tr') => (Fail e, tr')
    | (Panic, tr') => (Panic, tr')
    end.

Definition emit (e : Event) : M unit := fun tr => (Return tt, tr ++ [e]).

Definition fail {A} (e : error) : M A := fun tr => (Fail e, tr).

Definition panic {A} : M A := fun tr => (Panic, tr).

#[global] Instance M_ret : MRet M := @ret.
#[global] Instance M_bind : MBind M := fun A B k c => bind c k.

(** [x <- c; k] elaborates [c] before [k], so the type of [x] is known
    in [k]; [c ;; k] is stdpp's. *)
Notation "x <- c ; k" := (bind c (fun x => k))
  (at level 20, c at level 100, k at level 200, only parsing).

(** Go's [append(s, x)] on a slice, as a value. *)
Definition append {A} (s : list A) (x : A) : list A := s ++ [x].

(** Number of discovery calls made so far. *)
Fixpoint probes (tr : list Event) : nat :=
  match tr with
  | [] => 0%nat
  | EvIsCSRSupported :: tr' => S (probes tr')
  | _ :: tr' => probes tr'
  end.

Section Manager.

Variable env : Environment.

(** [features.DefaultHubRegistrationMutableFeatureGate.Enabled(f)] *)
Definition FeatureGateEnabled (f : Feature) : M bool :=
  emit (EvEnabled f) ;; mret (Enabled env f).

(** [kubernetes.NewForConfig] and its three siblings. *)
Definition newForConfig (c : Client) (cfg : Config) : M Client :=
  emit (EvNewForConfig c cfg) ;;
  match NewForConfig env c cfg with
  | Some err => fail err
  | None => mret c
  end.

Definition NewSharedInformerFactory (i : InformerFactory) (resync : Z)
  : M InformerFactory :=
  emit (EvNewSharedInformerFactory i resync) ;; mret i.

(** A controller constructor call. *)
Definition new (c : Controller) : M Controller :=
  emit (EvNewController c) ;; mret c.

(** [helpers.IsCSRSupported(kubeClient)] *)
Definition isCSRSupported : M Discovery :=
  fun tr => (Return (IsCSRSupported env (probes tr)), tr ++ [EvIsCSRSupported]).

(** [go c.Run(ctx, workers)] on a [factory.Controller] interface value,
    which may be nil. *)
Definition goRun (c : option Controller) (workers : Z) : M unit :=
  match c with
  | Some c => emit (EvGoRun c workers)
  | None => panic
  end.

Definition RunControllerManager (m : HubManagerOptions) : M unit :=
  let kubeConfig := KubeConfig env in
  let kubeConfig :=
    if Qeq_bool (QPS kubeConfig) 0
    then {| QPS := 100; Burst := 200 |}
    else kubeConfig in

  kubeClient <- newForConfig KubeClient kubeConfig;
  clusterClient <- newForConfig ClusterClient kubeConfig;
  workClient <- newForConfig WorkClient kubeConfig;
  addOnClient <- newForConfig AddOnClient kubeConfig;

  clusterInformers <- NewSharedInformerFactory ClusterInformers (10 * Minute);
  workInformers <- NewSharedInformerFactory WorkInformers (10 * Minute);
  kubeInfomers <- NewSharedInformerFactory KubeInformers (10 * Minute);
  addOnInformers <- NewSharedInformerFactory AddOnInformers (10 * Minute);

  managedClusterController <- new ManagedClusterController;
  taintController <- new TaintController;

  let csrReconciles : list csr.Reconciler := [csr.NewCSRRenewalReconciler] in
  autoApproval <- FeatureGateEnabled ManagedClusterAutoApproval;
  let csrReconciles : list csr.Reconciler :=
    if autoApproval
    then append csrReconciles
           (csr.NewCSRBootstrapReconciler (ClusterAutoApprovalUsers m))
    else csrReconciles in

  compat <- FeatureGateEnabled V1beta1CSRAPICompatibility;
  csrController <-
    (if compat then
       d <- isCSRSupported;
       match d with
       | DiscoveryFailed err => fail (Wrapf err "failed CSR api discovery")
       | Supported v1CSRSupported v1beta1CSRSupported =>
           if negb v1CSRSupported && v1beta1CSRSupported then
             (c <- new (CSRApprovingController
                         (csr.NewCSRApprovingController csr.V1beta1
                            csr.V1beta1 csr.V1beta1
                            csr.NewCSRV1beta1Approver csrReconciles));
              emit (EvInfo "Using v1beta1 CSR api to manage spoke client certificate");;
              mret (Some c))
           else mret None
       end
     else mret None);
  csrController <-
    match csrController with
    | None =>
        c <- new (CSRApprovingController
                    (csr.NewCSRApprovingController csr.V1
                       csr.V1 csr.V1
                       csr.NewCSRV1Approver csrReconciles));
        mret (Some c)
    | Some c => mret (Some c)
    end;

  leaseController <- new ClusterLeaseController;
  rbacFinalizerController <- new FinalizeController;
  managedClusterSetController <- new ManagedClusterSetController;
  managedClusterSetBindingController <- new ManagedClusterSetBindingController;
  clusterroleController <- new ManagedClusterClusterroleController;
  addOnHealthCheckController <- new ManagedClusterAddOnHealthCheckController;
  addOnFeatureDiscoveryController <- new AddOnFeatureDiscoveryController;

  defaultClusterSet <- FeatureGateEnabled DefaultClusterSet;
  sets <-
    (if defaultClusterSet then
       (d <- new DefaultManagedClusterSetController;
        g <- new GlobalManagedClusterSetController;
        mret (Some d, Some g))
     else mret (None, None));
  let defaultManagedClusterSetController := fst sets in
  let globalManagedClusterSetController := snd sets in

  emit (EvGoStart clusterInformers) ;;
  emit (EvGoStart workInformers) ;;
  emit (EvGoStart kubeInfomers) ;;
  emit (EvGoStart addOnInformers) ;;

  goRun (Some managedClusterController) 1 ;;
  goRun (Some taintController) 1 ;;
  goRun csrController 1 ;;
  goRun (Some leaseController) 1 ;;
  goRun (Some rbacFinalizerController) 1 ;;
  goRun (Some managedClusterSetController) 1 ;;
  goRun (Some managedClusterSetBindingController) 1 ;;
  goRun (Some clusterroleController) 1 ;;
  goRun (Some addOnHealthCheckController) 1 ;;
  goRun (Some addOnFeatureDiscoveryController) 1 ;;
  defaultClusterSet <- FeatureGateEnabled DefaultClusterSet;
  (if defaultClusterSet then
     (goRun defaultManagedClusterSetController 1 ;;
      goRun globalManagedClusterSetController 1)
   else mret tt) ;;

  emit EvCtxDone ;;
  mret tt.

End Manager.

(** One process lifetime: the manager run from an empty trace. *)
Definition startup (env : Environment) (m : HubManagerOptions)
  : Result unit * list Event :=
  RunControllerManager env m [].

End hub.

(** ** Reading a trace *)

Module trace.

Import hub.

(** The approving controllers constructed, in order. *)
Fixpoint approving (tr : list Event) : list csr.ApprovingController :=
  match tr with
  | [] => []
  | EvNewController (CSRApprovingController c) :: tr' => c :: approving tr'
  | _ :: tr' => approving tr'
  end.

(** The controllers started with [go c.Run(ctx, workers)], in order. *)
Fixpoint started (tr : list Event) : list (Controller * Z) :=
  match tr with
  | [] => []
  | EvGoRun c w :: tr' => (c, w) :: started tr'
  | _ :: tr' => started tr'
  end.

(** How often feature gate [f] was read. *)
Fixpoint reads (f : features.Feature) (tr : list Event) : nat :=
  match tr with
  | [] => 0%nat
  | EvEnabled g :: tr' =>
      if decide (f = g) then S (reads f tr') else reads f tr'
  | _ :: tr' => reads f tr'
  end.

(** The approving controllers among those started. *)
Fixpoint approvingStarted (l : list (Controller * Z))
  : list csr.ApprovingController :=
  match l with
  | [] => []
  | (CSRApprovingController c, _) :: l' => c :: approvingStarted l'
  | _ :: l' => approvingStarted l'
  end.

End trace.

(** * Properties *)

Import features errors hub trace.

(** Every client constructor succeeds. *)
Definition clientsOK (env : Environment) : Prop :=
  forall c cfg, NewForConfig env c cfg = None.

(** The approving controller for the current schema, over a given chain. *)
Definition currentController (chain : list csr.Reconciler)
  : csr.ApprovingController :=
  csr.NewCSRApprovingController csr.V1 csr.V1 csr.V1 csr.NewCSRV1Approver chain.

(** The approving controller for the legacy schema. *)
Definition legacyController (chain : list csr.Reconciler)
  : csr.ApprovingController :=
  csr.NewCSRApprovingController csr.V1beta1 csr.V1beta1 csr.V1beta1
    csr.NewCSRV1beta1Approver chain.

(** The policy chain the manager resolves from the options and the
    bootstrap feature gate. *)
Definition chainOf (env : Environment) (m : HubManagerOptions)
  : list csr.Reconciler :=
  csr.NewCSRRenewalReconciler ::
  (if Enabled env ManagedClusterAutoApproval
   then [csr.NewCSRBootstrapReconciler (ClusterAutoApprovalUsers m)]
   else []).

(** Startup failed on capability discovery. *)
Definition discoveryError (r : Result unit) : Prop :=
  exists err, r = Fail (Wrapf err "failed CSR api discovery").

(** An environment whose cluster serves only the legacy schema, with
    every feature gate off. *)
Definition legacyOnlyCluster : Environment :=
  {| KubeConfig := {| QPS := 0; Burst := 0 |};
     Enabled := fun _ => false;
     NewForConfig := fun _ _ => None;
     IsCSRSupported := fun _ => Supported false true |}.

(** An environment with the given gates and discovery answers, whose
    clients can all be built. *)
Definition cluster (gate : Feature -> bool) (answers : nat -> Discovery)
  : Environment :=
  {| KubeConfig := {| QPS := 5; Burst := 10 |};
     Enabled := gate;
     NewForConfig := fun _ _ => None;
     IsCSRSupported := answers |}.

Definition allGates (b : bool) : Feature -> bool := fun _ => b.

(** A cluster that serves both schemas, with every feature gate on. *)
Definition bothSchemasCluster : Environment :=
  cluster (allGates true) (fun _ => Supported true true).

(** A cluster whose first discovery call fails and whose later ones
    would succeed; every feature gate is on. *)
Definition flakyCluster : Environment :=
  cluster (allGates true)
    (fun n => match n with
              | O => DiscoveryFailed (New "connection refused")
              | S _ => Supported true true
              end).

Definition operators : HubManagerOptions :=
  {| ClusterAutoApprovalUsers := ["bootstrap-sa"] |}.

(** A request as a spoke agent creates it. *)
Definition bootstrapRequest (who : string) : csr.RegistrationRequest :=
  {| csr.requester := who;
     csr.usages := {[ csr.UsageClientAuth ]};
     csr.organization := ["system:open-cluster-management:cluster1"];
     csr.payload := [];
     csr.decision := csr.Pending;
     csr.variant := csr.V1 |}.

(** A hub with no accepted cluster yet, expecting the profile of
    [cluster1] from a bootstrapping agent. *)
Definition freshHub : csr.Hub :=
  {| csr.granted := ∅;
     csr.bootstrapProfile :=
       {| csr.profileOrganization := ["system:open-cluster-management:cluster1"];
          csr.profileUsages := {[ csr.UsageClientAuth ]} |} |}.

(** The policies of a chain, as the dispatcher consults them. *)
Definition policies (h : csr.Hub) (chain : list csr.Reconciler)
  : list csr.Policy :=
  map (csr.evaluate h) chain.

(** ** More readings of a trace *)

(** The controllers constructed, in order. *)
Fixpoint constructed (tr : list Event) : list Controller :=
  match tr with
  | [] => []
  | EvNewController c :: tr' => c :: constructed tr'
  | _ :: tr' => constructed tr'
  end.

(** The client constructor calls, each with the configuration passed. *)
Fixpoint clientCalls (tr : list Event) : list (Client * Config) :=
  match tr with
  | [] => []
  | EvNewForConfig c cfg :: tr' => (c, cfg) :: clientCalls tr'
  | _ :: tr' => clientCalls tr'
  end.

(** The informer factories created, each with its resync period. *)
Fixpoint factories (tr : list Event) : list (InformerFactory * Z) :=
  match tr with
  | [] => []
  | EvNewSharedInformerFactory i resync :: tr' => (i, resync) :: factories tr'
  | _ :: tr' => factories tr'
  end.

(** The informer factories started with [go i.Start(ctx.Done())]. *)
Fixpoint factoriesStarted (tr : list Event) : list InformerFactory :=
  match tr with
  | [] => []
  | EvGoStart i :: tr' => i :: factoriesStarted tr'
  | _ :: tr' => factoriesStarted tr'
  end.

(** The lines logged with [klog.Info]. *)
Fixpoint infos (tr : list Event) : list string :=
  match tr with
  | [] => []
  | EvInfo msg :: tr' => msg :: infos tr'
  | _ :: tr' => infos tr'
  end.

(** Construction: a client, an informer factory or a controller is built,
    or the cluster is asked what it serves. *)
Definition isWiring (e : Event) : bool :=
  match e with
  | EvNewForConfig _ _ | EvNewSharedInformerFactory _ _
  | EvNewController _ | EvIsCSRSupported => true
  | _ => false
  end.

Definition isGoStart (e : Event) : bool :=
  match e with EvGoStart _ => true | _ => false end.

Definition isGoRun (e : Event) : bool :=
  match e with EvGoRun _ _ => true | _ => false end.

(** No event of kind [p] comes after an event of kind [q]. *)
Fixpoint allBefore (p q : Event -> bool) (tr : list Event) : bool :=
  match tr with
  | [] => true
  | e :: tr' =>
      (if q e then forallb (fun e' => negb (p e')) tr' else true)
      && allBefore p q tr'
  end.

(** The order in which the manager builds its clients. *)
Definition clientOrder : list Client :=
  [KubeClient; ClusterClient; WorkClient; AddOnClient].

(** A cluster that serves only the legacy schema, with every feature
    gate on, the compatibility gate included. *)
Definition legacyCompatCluster : Environment :=
  cluster (allGates true) (fun _ => Supported false true).

(** A cluster with the compatibility gate on that serves neither schema. *)
Definition noSchemaCluster : Environment :=
  cluster (allGates true) (fun _ => Supported false false).

(** An environment in which the work client cannot be built. *)
Definition brokenWorkClient : Environment :=
  {| KubeConfig := {| QPS := 0; Burst := 0 |};
     Enabled := fun _ => true;
     NewForConfig := fun c _ =>
       match c with
       | WorkClient => Some (New "invalid configuration")
       | _ => None
       end;
     IsCSRSupported := fun _ => Supported true true |}.

(** ** Unfolding the manager *)

Ltac unfold_manager :=
  unfold startup, RunControllerManager, newForConfig, NewSharedInformerFactory,
    FeatureGateEnabled, new, isCSRSupported, goRun, emit, fail, panic, append.

Ltac step_manager :=
  cbv beta iota zeta delta
    [mbind mret M_bind M_ret bind ret app probes fst snd] in *.

(** Case analysis on everything the manager asks of its environment. *)
Ltac ask_clients env :=
  repeat match goal with
    | |- context [NewForConfig env ?c ?cfg] =>
        destruct (NewForConfig env c cfg) eqn:?; step_manager
    end.

Ltac ask_gates env :=
  repeat match goal with
    | |- context [Enabled env ?f] =>
        destruct (Enabled env f) eqn:?; step_manager
    end.

Ltac ask_discovery env :=
  repeat match goal with
    | |- context [IsCSRSupported env ?n] =>
        destruct (IsCSRSupported env n) as [[] []|] eqn:?; step_manager
    end.

Ltac run_manager env :=
  unfold_manager; step_manager;
  ask_clients env; ask_gates env; ask_discovery env.

Lemma clientsOK_cluster gate answers : clientsOK (cluster gate answers).
Proof. intros c cfg. reflexivity. Qed.

(** The manager never panics: the two optional controllers are started
    under the very gate that builds them. *)
Lemma startup_no_panic env m : fst (startup env m) <> Panic.
Proof. run_manager env; cbn; discriminate. Qed.

(** With working clients the only error the manager can return is the
    wrapped discovery error. *)
Lemma startup_result env m :
  clientsOK env ->
  fst (startup env m) = Return tt \/ discoveryError (fst (startup env m)).
Proof.
  intros Hok. unfold_manager; step_manager. rewrite !Hok. step_manager.
  ask_gates env; ask_discovery env; cbn;
    try (left; reflexivity); right; eexists; reflexivity.
Qed.

(** Every controller is started with one worker. *)
Lemma started_workers env m :
  Forall (fun cw => snd cw = 1) (started (snd (startup env m))).
Proof. run_manager env; cbn; repeat constructor. Qed.

(** The approving controllers built are the current or the legacy one,
    over the chain resolved from the bootstrap gate. *)
Lemma approving_chain env m :
  Forall (fun c => csr.csrReconcilers c = chainOf env m)
    (approving (snd (startup env m))).
Proof.
  unfold chainOf. run_manager env; cbn; repeat constructor.
Qed.

(** The bootstrap gate is read once, after the clients are built. *)
Lemma approving_reads env m :
  approving (snd (startup env m)) = [] \/
  reads ManagedClusterAutoApproval (snd (startup env m)) = 1%nat.
Proof. run_manager env; cbn; auto. Qed.

(** In a pool the keys under reconciliation never outnumber the workers. *)
Lemma pool_bound workers actions p :
  Z.of_nat (length (factory.inFlight p)) <= Z.max 0 workers ->
  Z.of_nat (length (factory.inFlight (fold_left (factory.step workers) actions p)))
    <= Z.max 0 workers.
Proof.
  revert p. induction actions as [|a actions IH]; intros p Hp; [exact Hp|].
  cbn [fold_left]. apply IH. destruct a as [key| |key]; cbn.
  - exact Hp.
  - destruct (factory.queue p) as [|key q]; [exact Hp|].
    destruct (Z.ltb_spec (Z.of_nat (length (factory.inFlight p))) workers);
      [cbn [factory.inFlight length]; lia | exact Hp].
  - assert (Hle : forall l, (length (factory.removeOne key l) <= length l)%nat).
    { induction l as [|k l IHl]; cbn; [lia|].
      destruct (decide (k = key)); cbn; lia. }
    specialize (Hle (factory.inFlight p)). lia.
Qed.

(** With the legacy-compatibility gate disabled and working clients,
    startup runs to the end with the current approving controller. *)
Lemma compat_disabled_current env m :
  Enabled env V1beta1CSRAPICompatibility = false ->
  clientsOK env ->
  fst (startup env m) = Return tt /\
  approving (snd (startup env m)) = [currentController (chainOf env m)] /\
  approvingStarted (started (snd (startup env m)))
    = [currentController (chainOf env m)].
Proof.
  intros Hc Hok. unfold chainOf, currentController.
  unfold_manager; step_manager. rewrite !Hok, ?Hc. step_manager.
  ask_gates env; cbn; auto.
Qed.

(** ** The Compatibility Selector *)

(** C3.  Whenever discovery reports the current schema as supported, the
    current variant is selected: no approving controller other than the
    current one is ever built or started, whatever discovery says about
    the legacy schema and whatever the feature gates are; and once the
    clients are built, exactly the current one is built and started. *)
Theorem current_supported_selects_current env m legacy :
  IsCSRSupported env 0 = Supported true legacy ->
  Forall (fun c => c = currentController (chainOf env m))
    (approving (snd (startup env m))) /\
  (clientsOK env ->
   fst (startup env m) = Return tt /\
   approving (snd (startup env m)) = [currentController (chainOf env m)] /\
   approvingStarted (started (snd (startup env m)))
     = [currentController (chainOf env m)]).
Proof.
  intros Hd. unfold chainOf, currentController. split.
  - unfold_manager; step_manager; ask_clients env; ask_gates env;
      rewrite ?Hd; step_manager; cbn; repeat constructor.
  - intros Hok. unfold_manager; step_manager. rewrite !Hok. step_manager.
    ask_gates env; rewrite ?Hd; step_manager; cbn; auto.
Qed.

Lemma current_supported_selects_current_witness :
  IsCSRSupported bothSchemasCluster 0 = Supported true true /\
  approving (snd (startup bothSchemasCluster operators))
    = [currentController (chainOf bothSchemasCluster operators)].
Proof.
  split; [reflexivity|].
  apply (current_supported_selects_current bothSchemasCluster operators true);
    [reflexivity|].
  apply clientsOK_cluster.
Defined.

(** C9.  With the legacy-compatibility gate disabled the manager makes no
    discovery call at all, and once the clients are built it constructs
    and starts the current (v1) approving controller, whatever the
    cluster would have answered. *)
Theorem no_discovery_when_compat_disabled env m :
  Enabled env V1beta1CSRAPICompatibility = false ->
  probes (snd (startup env m)) = 0%nat /\
  (clientsOK env ->
   fst (startup env m) = Return tt /\
   approving (snd (startup env m)) = [currentController (chainOf env m)] /\
   approvingStarted (started (snd (startup env m)))
     = [currentController (chainOf env m)]).
Proof.
  intros Hc. unfold chainOf, currentController. split.
  - unfold_manager; step_manager; ask_clients env; rewrite ?Hc; step_manager;
      ask_gates env; cbn; reflexivity.
  - intros Hok. apply (compat_disabled_current env m Hc Hok).
Qed.

Lemma no_discovery_when_compat_disabled_witness :
  Enabled legacyOnlyCluster V1beta1CSRAPICompatibility = false /\
  probes (snd (startup legacyOnlyCluster operators)) = 0%nat.
Proof.
  split; [reflexivity|].
  apply (no_discovery_when_compat_disabled legacyOnlyCluster operators).
  reflexivity.
Defined.

(** C2, as stated, fails: on a cluster that serves only the legacy
    schema, with the legacy-compatibility gate disabled, startup does not
    end in a discovery error; the current pipeline is constructed. *)
Lemma compat_disabled_current_unsupported_starts :
  Enabled legacyOnlyCluster V1beta1CSRAPICompatibility = false /\
  IsCSRSupported legacyOnlyCluster 0 = Supported false true /\
  ~ discoveryError (fst (startup legacyOnlyCluster operators)) /\
  fst (startup legacyOnlyCluster operators) = Return tt /\
  approving (snd (startup legacyOnlyCluster operators))
    = [currentController [csr.NewCSRRenewalReconciler]].
Proof.
  repeat split; try reflexivity.
  intros [err Herr]. vm_compute in Herr. discriminate Herr.
Qed.

(** C2, amended.  When the current schema is unsupported and the
    legacy-compatibility gate is disabled, the selector does not fail:
    startup returns no discovery error, and once the clients are built
    it runs to the end with the current pipeline constructed. *)
Theorem compat_disabled_no_discovery_error env m legacy :
  IsCSRSupported env 0 = Supported false legacy ->
  Enabled env V1beta1CSRAPICompatibility = false ->
  clientsOK env ->
  ~ discoveryError (fst (startup env m)) /\
  fst (startup env m) = Return tt /\
  approving (snd (startup env m)) = [currentController (chainOf env m)].
Proof.
  intros _ Hc Hok.
  destruct (compat_disabled_current env m Hc Hok) as (Hr & Ha & _).
  repeat split; [|exact Hr|exact Ha].
  intros [err Herr]. rewrite Hr in Herr. discriminate Herr.
Qed.

Lemma compat_disabled_no_discovery_error_witness :
  IsCSRSupported legacyOnlyCluster 0 = Supported false true /\
  Enabled legacyOnlyCluster V1beta1CSRAPICompatibility = false /\
  fst (startup legacyOnlyCluster operators) = Return tt.
Proof.
  split; [reflexivity|]. split; [reflexivity|].
  apply (compat_disabled_no_discovery_error legacyOnlyCluster operators true);
    [reflexivity | reflexivity | intros c cfg; reflexivity].
Defined.

(** C5.  A discovery error is fatal: the manager returns it, wrapped, to
    its caller after a single discovery call, without building or
    starting any approving controller, even where a second call would
    have succeeded. *)
Theorem discovery_error_is_fatal env m err :
  clientsOK env ->
  Enabled env V1beta1CSRAPICompatibility = true ->
  IsCSRSupported env 0 = DiscoveryFailed err ->
  fst (startup env m) = Fail (Wrapf err "failed CSR api discovery") /\
  probes (snd (startup env m)) = 1%nat /\
  approving (snd (startup env m)) = [] /\
  started (snd (startup env m)) = [].
Proof.
  intros Hok Hc Hd. unfold_manager; step_manager.
  rewrite !Hok, ?Hc. step_manager. rewrite ?Hd. step_manager.
  ask_gates env; cbn; auto.
Qed.

Lemma discovery_error_is_fatal_witness :
  IsCSRSupported flakyCluster 1 = Supported true true /\
  fst (startup flakyCluster operators)
    = Fail (Wrapf (New "connection refused") "failed CSR api discovery") /\
  probes (snd (startup flakyCluster operators)) = 1%nat.
Proof.
  split; [reflexivity|].
  destruct (discovery_error_is_fatal flakyCluster operators
              (New "connection refused")) as (Hr & Hp & _);
    [apply clientsOK_cluster | reflexivity | reflexivity |].
  split; [exact Hr | exact Hp].
Defined.

(** C6.  One process lifetime has one schema variant.  Over the whole
    run of the manager there is at most one discovery call and at most
    one approving controller built.  When the clients can be built and
    discovery, where it is made, does not fail, startup succeeds and has
    built and started exactly one approving controller, current or
    legacy, the legacy one exactly when the compatibility gate is on and
    discovery answered that only the legacy schema is served.  The same
    holds of every startup that succeeds. *)
Theorem one_variant_per_lifetime env m :
  (probes (snd (startup env m)) <= 1)%nat /\
  (length (approving (snd (startup env m))) <= 1)%nat /\
  (clientsOK env ->
   (Enabled env V1beta1CSRAPICompatibility = true ->
    exists v1 v1beta1, IsCSRSupported env 0 = Supported v1 v1beta1) ->
   fst (startup env m) = Return tt /\
   exists c,
     approving (snd (startup env m)) = [c] /\
     approvingStarted (started (snd (startup env m))) = [c] /\
     (c = currentController (chainOf env m) \/
      c = legacyController (chainOf env m)) /\
     (c = legacyController (chainOf env m) <->
      Enabled env V1beta1CSRAPICompatibility = true /\
      IsCSRSupported env 0 = Supported false true)) /\
  (fst (startup env m) = Return tt ->
   exists c,
     approving (snd (startup env m)) = [c] /\
     approvingStarted (started (snd (startup env m))) = [c] /\
     (c = currentController (chainOf env m) \/
      c = legacyController (chainOf env m)) /\
     (c = legacyController (chainOf env m) <->
      Enabled env V1beta1CSRAPICompatibility = true /\
      IsCSRSupported env 0 = Supported false true)).
Proof.
  unfold chainOf, currentController, legacyController.
  split; [|split; [|split]].
  - run_manager env; cbn; lia.
  - run_manager env; cbn; lia.
  - intros Hok Hanswer. unfold_manager; step_manager.
    rewrite !Hok. step_manager.
    destruct (Enabled env V1beta1CSRAPICompatibility) eqn:Hc; step_manager.
    + destruct (Hanswer eq_refl) as (v1 & v1beta1 & Hd).
      destruct (Enabled env ManagedClusterAutoApproval); step_manager;
        rewrite Hd; step_manager;
        destruct v1, v1beta1; step_manager;
        destruct (Enabled env DefaultClusterSet); step_manager; cbn;
        (split; [reflexivity|]); eexists;
        (split; [reflexivity|]); (split; [reflexivity|]);
        (split; [auto|]); (split; [|intros [? ?]]); try discriminate; auto.
    + ask_gates env; cbn; (split; [reflexivity|]); eexists;
        (split; [reflexivity|]); (split; [reflexivity|]);
        (split; [auto|]); (split; [|intros [? ?]]); try discriminate; auto.
  - unfold_manager; step_manager; ask_clients env;
      try (intros Hr; discriminate Hr).
    destruct (Enabled env V1beta1CSRAPICompatibility) eqn:Hc; step_manager;
      [destruct (IsCSRSupported env 0) as [[] []|] eqn:Hd; step_manager|];
      ask_gates env; cbn; try (intros Hr; discriminate Hr); intros _;
      eexists; (split; [reflexivity|]); (split; [reflexivity|]);
      (split; [auto|]); (split; [|intros [? ?]]); try discriminate; auto.
Qed.

Lemma one_variant_per_lifetime_witness :
  clientsOK legacyCompatCluster /\
  IsCSRSupported legacyCompatCluster 0 = Supported false true /\
  fst (startup legacyCompatCluster operators) = Return tt /\
  approving (snd (startup legacyCompatCluster operators))
    = [legacyController (chainOf legacyCompatCluster operators)] /\
  approvingStarted (started (snd (startup legacyCompatCluster operators)))
    = [legacyController (chainOf legacyCompatCluster operators)].
Proof.
  split; [apply clientsOK_cluster|]. split; [reflexivity|].
  destruct (one_variant_per_lifetime legacyCompatCluster operators)
    as (_ & _ & Hone & _).
  destruct Hone as (Hr & c & Hbuilt & Hrun & _ & Hlegacy);
    [apply clientsOK_cluster | intros _; exists false, true; reflexivity |].
  assert (Hc : c = legacyController (chainOf legacyCompatCluster operators))
    by (apply Hlegacy; split; reflexivity).
  rewrite Hc in Hbuilt, Hrun.
  split; [exact Hr|]. split; [exact Hbuilt | exact Hrun].
Defined.

(** ** The policy chain *)

(** C4.  The chain of an approving controller is fixed when the
    controller is built: the renewal reconciler comes first, and the
    bootstrap reconciler follows it exactly when the bootstrap gate is
    enabled; the gate is read once in the whole run. *)
Theorem policy_chain_resolved_once env m c :
  c ∈ approving (snd (startup env m)) ->
  csr.csrReconcilers c
    = (if Enabled env ManagedClusterAutoApproval
       then [csr.NewCSRRenewalReconciler;
             csr.NewCSRBootstrapReconciler (ClusterAutoApprovalUsers m)]
       else [csr.NewCSRRenewalReconciler]) /\
  head (csr.csrReconcilers c) = Some csr.NewCSRRenewalReconciler /\
  (csr.NewCSRBootstrapReconciler (ClusterAutoApprovalUsers m)
     ∈ csr.csrReconcilers c <->
   Enabled env ManagedClusterAutoApproval = true) /\
  reads ManagedClusterAutoApproval (snd (startup env m)) = 1%nat.
Proof.
  intros Hin.
  pose proof (approving_chain env m) as Hall.
  rewrite Forall_forall in Hall. specialize (Hall c Hin).
  destruct (approving_reads env m) as [Hnil|Hreads];
    [rewrite Hnil in Hin; apply elem_of_nil in Hin; contradiction|].
  rewrite Hall. unfold chainOf.
  destruct (Enabled env ManagedClusterAutoApproval); cbn;
    (split; [reflexivity|]); (split; [reflexivity|]);
    (split; [|exact Hreads]); split; intros H; try reflexivity;
    try discriminate H.
  - apply list_elem_of_further, list_elem_of_here.
  - apply list_elem_of_singleton in H. discriminate H.
Qed.

Lemma policy_chain_resolved_once_witness :
  csr.csrReconcilers (currentController (chainOf bothSchemasCluster operators))
    = [csr.NewCSRRenewalReconciler; csr.NewCSRBootstrapReconciler ["bootstrap-sa"]].
Proof.
  apply (policy_chain_resolved_once bothSchemasCluster operators
           (currentController (chainOf bothSchemasCluster operators))).
  apply list_elem_of_here.
Defined.

(** ** Workers *)

(** C10.  Every controller the manager starts is started with exactly
    one worker, so that in its pool at most one key is under
    reconciliation at any time, whatever the keys are. *)
Theorem every_controller_single_worker env m c workers :
  (c, workers) ∈ started (snd (startup env m)) ->
  workers = 1 /\
  forall actions,
    (length (factory.inFlight (factory.Run workers actions)) <= 1)%nat.
Proof.
  intros Hin.
  pose proof (started_workers env m) as Hall.
  rewrite Forall_forall in Hall. specialize (Hall _ Hin). cbn in Hall.
  split; [exact Hall|]. intros actions. subst workers.
  pose proof (pool_bound 1 actions {| factory.queue := []; factory.inFlight := [] |})
    as Hb.
  unfold factory.Run. cbn in Hb. lia.
Qed.

Lemma every_controller_single_worker_witness :
  (length (factory.inFlight
     (factory.Run 1 [factory.Enqueue "cluster1"; factory.Enqueue "cluster2";
                     factory.Take; factory.Take])) <= 1)%nat.
Proof.
  apply (every_controller_single_worker bothSchemasCluster operators
           TaintController 1).
  vm_compute. apply list_elem_of_further, list_elem_of_here.
Defined.

(** ** The Bootstrap Auto-Approval Policy *)

Lemma matches_spec p r :
  csr.matches p r = true <->
  csr.organization r = csr.profileOrganization p /\
  csr.usages r = csr.profileUsages p.
Proof.
  unfold csr.matches.
  rewrite andb_true_iff, !bool_decide_eq_true. reflexivity.
Qed.

Lemma bootstrap_outcome users h r :
  csr.outcome (csr.bootstrap users h r)
    = if bool_decide (csr.requester r ∈ users)
         && csr.matches (csr.bootstrapProfile h) r
      then csr.Approve else csr.NoOpinion.
Proof.
  unfold csr.bootstrap.
  destruct (bool_decide (csr.requester r ∈ users)
            && csr.matches (csr.bootstrapProfile h) r); reflexivity.
Qed.

(** C1.  The bootstrap policy approves a request exactly when its
    requester is on the allow-list and its organization and usages are
    those of the expected bootstrap profile; it never answers anything
    but Approve or NoOpinion; a requester off the list gets NoOpinion
    whatever else the request holds, and so it is for the bootstrap
    reconciler of every approving controller the manager builds, which
    is there only when the bootstrap gate is enabled. *)
Theorem bootstrap_approves_iff h users r :
  (csr.outcome (csr.evaluate h (csr.NewCSRBootstrapReconciler users) r)
     = csr.Approve <->
   csr.requester r ∈ users /\
   csr.organization r = csr.profileOrganization (csr.bootstrapProfile h) /\
   csr.usages r = csr.profileUsages (csr.bootstrapProfile h)) /\
  (csr.outcome (csr.evaluate h (csr.NewCSRBootstrapReconciler users) r)
     <> csr.Approve ->
   csr.outcome (csr.evaluate h (csr.NewCSRBootstrapReconciler users) r)
     = csr.NoOpinion) /\
  (csr.requester r ∉ users ->
   csr.outcome (csr.evaluate h (csr.NewCSRBootstrapReconciler users) r)
     = csr.NoOpinion) /\
  (forall env m c u,
     c ∈ approving (snd (startup env m)) ->
     csr.NewCSRBootstrapReconciler u ∈ csr.csrReconcilers c ->
     Enabled env ManagedClusterAutoApproval = true /\
     (csr.requester r ∉ ClusterAutoApprovalUsers m ->
      csr.outcome (csr.evaluate h (csr.NewCSRBootstrapReconciler u) r)
        = csr.NoOpinion)).
Proof.
  cbn [csr.evaluate]. rewrite bootstrap_outcome.
  split; [|split; [|split]].
  - rewrite <- matches_spec.
    destruct (bool_decide (csr.requester r ∈ users)) eqn:Hin;
      destruct (csr.matches (csr.bootstrapProfile h) r); cbn;
      [apply bool_decide_eq_true in Hin | apply bool_decide_eq_true in Hin
      | apply bool_decide_eq_false in Hin | apply bool_decide_eq_false in Hin];
      split; try discriminate; try tauto; intros [? ?]; try discriminate;
      contradiction.
  - destruct (bool_decide (csr.requester r ∈ users)
              && csr.matches (csr.bootstrapProfile h) r);
      [intros H; contradiction H; reflexivity | reflexivity].
  - intros Hout. rewrite (bool_decide_eq_false_2 _ Hout). reflexivity.
  - intros env m c u Hc Hu.
    pose proof (approving_chain env m) as Hall.
    rewrite Forall_forall in Hall. rewrite (Hall c Hc) in Hu. unfold chainOf in Hu.
    apply elem_of_cons in Hu as [Hu|Hu]; [discriminate Hu|].
    destruct (Enabled env ManagedClusterAutoApproval);
      [|apply elem_of_nil in Hu; contradiction].
    apply list_elem_of_singleton in Hu. injection Hu as ->.
    split; [reflexivity|]. intros Hout. rewrite bootstrap_outcome.
    rewrite (bool_decide_eq_false_2 _ Hout). reflexivity.
Qed.

(** ** The Approval Chain Dispatcher *)

Lemma dispatch_terminal chain r :
  csr.decision r <> csr.Pending -> csr.dispatch chain r = (r, []).
Proof.
  intros Hd. unfold csr.dispatch.
  destruct (csr.decision r); [contradiction Hd|..]; reflexivity.
Qed.

Lemma deliver_terminal chains r :
  csr.decision r <> csr.Pending ->
  csr.deliver chains r
    = (r, [], replicate (length chains) (csr.decision r)).
Proof.
  intros Hd. induction chains as [|chain chains IH]; [reflexivity|].
  cbn [csr.deliver]. rewrite (dispatch_terminal chain r Hd), IH. reflexivity.
Qed.

(** A dispatch either leaves the request as it is, without a write, or
    takes it from Pending to a terminal state with one write. *)
Lemma dispatch_cases chain r :
  csr.dispatch chain r = (r, []) \/
  exists s reason,
    csr.decision r = csr.Pending /\ s <> csr.Pending /\
    csr.dispatch chain r
      = (csr.decide_as s r, [csr.UpdateDecision (csr.requester r) s reason]).
Proof.
  unfold csr.dispatch. destruct (csr.decision r); auto.
  destruct (csr.outcome (csr.consult chain r)); auto;
    right; eexists _, _; (split; [reflexivity|]); (split; [|reflexivity]);
    discriminate.
Qed.

(** C7.  However often a request is delivered to the dispatcher, and
    whatever the policies answer each time, at most one write is issued
    and the decision state leaves Pending at most once: the states seen
    are Pending for a while and then one terminal state for ever; on a
    request that is already Approved or Denied a dispatch writes nothing
    and changes nothing. *)
Theorem decision_leaves_pending_at_most_once chains r :
  (length (snd (fst (csr.deliver chains r))) <= 1)%nat /\
  (exists k s,
     s <> csr.Pending /\
     snd (csr.deliver chains r)
       = replicate k csr.Pending ++ replicate (length chains - k) s) /\
  (csr.decision r <> csr.Pending ->
   forall chain, csr.dispatch chain r = (r, [])).
Proof.
  split; [|split].
  - revert r. induction chains as [|chain chains IH]; intros r; [cbn; lia|].
    cbn [csr.deliver].
    destruct (dispatch_cases chain r) as [Hsame|(s & why & _ & Hs & Hmove)].
    + rewrite Hsame. specialize (IH r).
      destruct (csr.deliver chains r) as [[r2 w2] h2]. exact IH.
    + rewrite Hmove, (deliver_terminal chains (csr.decide_as s r) Hs).
      cbn. lia.
  - revert r. induction chains as [|chain chains IH]; intros r.
    { exists 0%nat, csr.Approved. split; [discriminate | reflexivity]. }
    cbn [csr.deliver].
    destruct (dispatch_cases chain r) as [Hsame|(s & why & _ & Hs & Hmove)].
    + rewrite Hsame.
      destruct (decide (csr.decision r = csr.Pending)) as [Hp|Hp].
      * destruct (IH r) as (k & s & Hs & Hh).
        destruct (csr.deliver chains r) as [[r2 w2] h2]. cbn [snd] in *.
        exists (S k), s. split; [exact Hs|]. rewrite Hp, Hh. reflexivity.
      * rewrite (deliver_terminal chains r Hp). cbn [snd].
        exists 0%nat, (csr.decision r). split; [exact Hp | reflexivity].
    + rewrite Hmove, (deliver_terminal chains (csr.decide_as s r) Hs).
      cbn [snd csr.decide_as csr.decision].
      exists 0%nat, s. split; [exact Hs | reflexivity].
  - intros Hd chain. apply dispatch_terminal, Hd.
Qed.

(** The scenario of the design document: with ["bootstrap-sa"] on the
    allow-list and the bootstrap gate enabled, the chain the manager
    builds approves the request of [bootstrap-sa] and leaves that of
    [random-user] pending. *)
Example bootstrap_scenario_approved :
  csr.dispatch (policies freshHub (chainOf bothSchemasCluster operators))
    (bootstrapRequest "bootstrap-sa")
  = (csr.decide_as csr.Approved (bootstrapRequest "bootstrap-sa"),
     [csr.UpdateDecision "bootstrap-sa" csr.Approved
        "AutoApprovedByHubCSRApprovingController"]).
Proof. vm_compute. reflexivity. Qed.

Example bootstrap_scenario_pending :
  csr.dispatch (policies freshHub (chainOf bothSchemasCluster operators))
    (bootstrapRequest "random-user")
  = (bootstrapRequest "random-user", []).
Proof. vm_compute. reflexivity. Qed.

(** A second delivery of the approved request writes nothing. *)
Example bootstrap_scenario_redelivered :
  snd (fst (csr.deliver
              [policies freshHub (chainOf bothSchemasCluster operators);
               policies freshHub (chainOf bothSchemasCluster operators)]
              (bootstrapRequest "bootstrap-sa")))
  = [csr.UpdateDecision "bootstrap-sa" csr.Approved
       "AutoApprovedByHubCSRApprovingController"].
Proof. vm_compute. reflexivity. Qed.

(** ** The Heartbeat/Taint State Machine *)

(** The availability after an evaluation depends on the age alone. *)
Lemma evaluate_availability T age now c :
  lease.availability (fst (lease.evaluate T age now c))
    = if T <? age then lease.Unreachable else lease.Available.
Proof.
  unfold lease.evaluate.
  destruct (T <? age), c as [[] ts]; cbn;
    destruct (ts !! lease.unreachableTaint); reflexivity.
Qed.

Lemma observe_availability T ages c :
  lease.observe T ages c
    = map (fun age => if T <? age then lease.Unreachable else lease.Available)
        ages.
Proof.
  revert c. induction ages as [|age ages IH]; intros c; [reflexivity|].
  cbn [lease.observe map]. rewrite evaluate_availability, IH. reflexivity.
Qed.

(** C8.  With R = 60 s and T = 5 R = 300 s, the heartbeat ages 30, 90,
    150, 210, 270, 330 give Available five times and then Unreachable,
    from whatever state the cluster starts in; in general an evaluation
    ends in Unreachable exactly when the age exceeds T. *)
Theorem liveness_flips_only_past_threshold c :
  lease.threshold 60 = 300 /\
  lease.observe (lease.threshold 60) [30; 90; 150; 210; 270; 330] c
    = [lease.Available; lease.Available; lease.Available; lease.Available;
       lease.Available; lease.Unreachable] /\
  (forall T age now c',
     lease.availability (fst (lease.evaluate T age now c')) = lease.Unreachable
     <-> T < age).
Proof.
  split; [reflexivity|]. split.
  - rewrite observe_availability. reflexivity.
  - intros T age now c'. rewrite evaluate_availability.
    destruct (Z.ltb_spec T age); split; intros H'; try reflexivity;
      try discriminate H'; try lia; assumption.
Qed.

(** The taint follows the state: it is put on once and taken off once. *)
Example liveness_taint_once :
  let c0 := {| lease.availability := lease.Unknown; lease.taints := ∅ |} in
  let '(c1, w1) := lease.evaluate 300 330 330 c0 in
  let '(c2, w2) := lease.evaluate 300 390 390 c1 in
  let '(c3, w3) := lease.evaluate 300 30 420 c2 in
  let '(c4, w4) := lease.evaluate 300 90 480 c3 in
  w1 = [lease.SetAvailability lease.Unreachable;
        lease.AddTaint lease.unreachableTaint] /\
  w2 = [] /\
  w3 = [lease.SetAvailability lease.Available;
        lease.RemoveTaint lease.unreachableTaint] /\
  w4 = [] /\ lease.taints c4 = ∅.
Proof. vm_compute. repeat split; reflexivity. Qed.

(** * Further properties of the manager *)

(** ** Clients *)

(** X1.  All clients are built from one configuration: when the given
    QPS is zero it is the copy with QPS 100 and burst 200, otherwise the
    given configuration unchanged, its burst included; a startup that
    succeeds has built the four clients, in their order. *)
Theorem clients_share_config env m :
  (Qeq (QPS (KubeConfig env)) 0 ->
   Forall (fun cc => snd cc = {| QPS := 100; Burst := 200 |})
     (clientCalls (snd (startup env m)))) /\
  (~ Qeq (QPS (KubeConfig env)) 0 ->
   Forall (fun cc => snd cc = KubeConfig env)
     (clientCalls (snd (startup env m)))) /\
  (fst (startup env m) = Return tt ->
   map fst (clientCalls (snd (startup env m))) = clientOrder).
Proof.
  split; [|split].
  - intros Hq. apply Qeq_bool_iff in Hq.
    run_manager env; rewrite Hq; cbn; repeat constructor.
  - intros Hq.
    assert (Hb : Qeq_bool (QPS (KubeConfig env)) 0 = false).
    { destruct (Qeq_bool (QPS (KubeConfig env)) 0) eqn:Hb; [|reflexivity].
      apply Qeq_bool_iff in Hb. contradiction. }
    run_manager env; rewrite Hb; cbn; repeat constructor.
  - run_manager env; cbn; intros Hr; try discriminate Hr; reflexivity.
Qed.

(** X2.  The first client that cannot be built ends startup: its error
    is returned as it is, and the trace holds the client constructor
    calls up to that one and nothing else, so no feature gate was read,
    nothing was discovered, and nothing was built or started. *)
Theorem first_client_error_returned env m pre c post err :
  clientOrder = pre ++ c :: post ->
  (forall c' cfg, c' ∈ pre -> NewForConfig env c' cfg = None) ->
  (forall cfg, NewForConfig env c cfg = Some err) ->
  fst (startup env m) = Fail err /\
  map fst (clientCalls (snd (startup env m))) = pre ++ [c] /\
  length (snd (startup env m)) = length (pre ++ [c]).
Proof.
  intros Horder Hpre Hc. unfold clientOrder in Horder.
  destruct pre as [|c1 [|c2 [|c3 [|c4 pre]]]]; simplify_eq/=.
  - unfold_manager; step_manager. rewrite Hc. step_manager. cbn. auto.
  - unfold_manager; step_manager.
    rewrite (Hpre KubeClient) by (rewrite !elem_of_cons; auto).
    step_manager. rewrite Hc. step_manager. cbn. auto.
  - unfold_manager; step_manager.
    rewrite (Hpre KubeClient) by (rewrite !elem_of_cons; auto).
    step_manager.
    rewrite (Hpre ClusterClient) by (rewrite !elem_of_cons; auto).
    step_manager. rewrite Hc. step_manager. cbn. auto.
  - unfold_manager; step_manager.
    rewrite (Hpre KubeClient) by (rewrite !elem_of_cons; auto).
    step_manager.
    rewrite (Hpre ClusterClient) by (rewrite !elem_of_cons; auto).
    step_manager.
    rewrite (Hpre WorkClient) by (rewrite !elem_of_cons; auto).
    step_manager. rewrite Hc. step_manager. cbn. auto.
  - destruct pre; discriminate.
Qed.

Lemma first_client_error_returned_witness :
  fst (startup brokenWorkClient operators) = Fail (New "invalid configuration") /\
  map fst (clientCalls (snd (startup brokenWorkClient operators)))
    = [KubeClient; ClusterClient; WorkClient] /\
  length (snd (startup brokenWorkClient operators)) = 3%nat.
Proof.
  apply (first_client_error_returned brokenWorkClient operators
           [KubeClient; ClusterClient] WorkClient [AddOnClient]
           (New "invalid configuration")).
  - reflexivity.
  - intros c' cfg Hin. rewrite !elem_of_cons in Hin.
    destruct Hin as [->|[->|Hin]]; [reflexivity | reflexivity |].
    apply elem_of_nil in Hin. contradiction.
  - intros cfg. reflexivity.
Defined.

(** ** What is started *)

(** X3.  A startup that succeeds has started every controller it built,
    once each and in the order of construction, and nothing else. *)
Theorem started_are_the_constructed env m :
  fst (startup env m) = Return tt ->
  map fst (started (snd (startup env m))) = constructed (snd (startup env m)) /\
  NoDup (constructed (snd (startup env m))).
Proof.
  run_manager env; cbn; intros Hr; try discriminate Hr;
    (split; [reflexivity|]);
    repeat (apply NoDup_cons; split;
            [rewrite ?elem_of_cons, elem_of_nil; intuition discriminate|]);
    apply NoDup_nil; exact I.
Qed.

Lemma started_are_the_constructed_witness :
  map fst (started (snd (startup bothSchemasCluster operators)))
    = constructed (snd (startup bothSchemasCluster operators)).
Proof.
  apply (started_are_the_constructed bothSchemasCluster operators).
  reflexivity.
Defined.

(** X4.  The default and the global cluster set controllers are built and
    started exactly when the [DefaultClusterSet] gate is enabled: a
    startup that succeeds runs twelve controllers with the gate on and
    ten with the gate off. *)
Theorem default_cluster_set_gated env m :
  fst (startup env m) = Return tt ->
  (DefaultManagedClusterSetController ∈ map fst (started (snd (startup env m)))
   <-> Enabled env DefaultClusterSet = true) /\
  (GlobalManagedClusterSetController ∈ map fst (started (snd (startup env m)))
   <-> Enabled env DefaultClusterSet = true) /\
  length (started (snd (startup env m)))
    = (if Enabled env DefaultClusterSet then 12%nat else 10%nat).
Proof.
  unfold_manager; step_manager; ask_clients env;
    try (intros Hr; discriminate Hr).
  destruct (Enabled env DefaultClusterSet) eqn:Hg; step_manager;
    ask_gates env; ask_discovery env; cbn;
    intros Hr; try discriminate Hr;
    (split; [|split; [|reflexivity]]);
    rewrite ?elem_of_cons, elem_of_nil; split; intros H;
    try reflexivity; try discriminate H; intuition discriminate.
Qed.

Lemma default_cluster_set_gated_witness :
  length (started (snd (startup legacyOnlyCluster operators))) = 10%nat /\
  length (started (snd (startup bothSchemasCluster operators))) = 12%nat.
Proof.
  split.
  - apply (default_cluster_set_gated legacyOnlyCluster operators). reflexivity.
  - apply (default_cluster_set_gated bothSchemasCluster operators). reflexivity.
Defined.

(** X5.  A startup that succeeds has created the four informer factories,
    each with a resync period of ten minutes, and has started each of
    them once, in the order of creation. *)
Theorem informer_factories_started env m :
  fst (startup env m) = Return tt ->
  factories (snd (startup env m))
    = [(ClusterInformers, 600000000000); (WorkInformers, 600000000000);
       (KubeInformers, 600000000000); (AddOnInformers, 600000000000)] /\
  factoriesStarted (snd (startup env m))
    = map fst (factories (snd (startup env m))).
Proof.
  run_manager env; cbn; intros Hr; try discriminate Hr; split; reflexivity.
Qed.

Lemma informer_factories_started_witness :
  factoriesStarted (snd (startup bothSchemasCluster operators))
    = [ClusterInformers; WorkInformers; KubeInformers; AddOnInformers].
Proof.
  destruct (informer_factories_started bothSchemasCluster operators)
    as (Hf & Hs); [reflexivity|].
  rewrite Hs, Hf. reflexivity.
Defined.

(** X6.  When the manager returns an error it has started nothing: no
    informer factory and no controller runs, and it has not waited for
    the context to end. *)
Theorem error_starts_nothing env m err :
  fst (startup env m) = Fail err ->
  started (snd (startup env m)) = [] /\
  factoriesStarted (snd (startup env m)) = [] /\
  EvCtxDone ∉ snd (startup env m).
Proof.
  run_manager env; cbn; intros Hr; try discriminate Hr;
    (split; [reflexivity|]); (split; [reflexivity|]);
    rewrite ?elem_of_cons, elem_of_nil; intuition discriminate.
Qed.

Lemma error_starts_nothing_witness :
  started (snd (startup flakyCluster operators)) = [] /\
  factoriesStarted (snd (startup brokenWorkClient operators)) = [].
Proof.
  split.
  - apply (error_starts_nothing flakyCluster operators
             (Wrapf (New "connection refused") "failed CSR api discovery")).
    reflexivity.
  - apply (error_starts_nothing brokenWorkClient operators
             (New "invalid configuration")).
    reflexivity.
Defined.

(** ** Discovery and selection *)

(** X7.  With the compatibility gate enabled and working clients, the
    cluster is asked once, and an answer selects as follows: the legacy
    controller, with a log line saying so, when the current schema is not
    served and the legacy one is; the current controller, with nothing
    logged, in every other case, also when neither schema is served,
    which is no error. *)
Theorem compat_enabled_selection env m v1 v1beta1 :
  clientsOK env ->
  Enabled env V1beta1CSRAPICompatibility = true ->
  IsCSRSupported env 0 = Supported v1 v1beta1 ->
  fst (startup env m) = Return tt /\
  probes (snd (startup env m)) = 1%nat /\
  (v1 = false /\ v1beta1 = true ->
   approving (snd (startup env m)) = [legacyController (chainOf env m)] /\
   infos (snd (startup env m))
     = ["Using v1beta1 CSR api to manage spoke client certificate"]) /\
  (v1 = true \/ v1beta1 = false ->
   approving (snd (startup env m)) = [currentController (chainOf env m)] /\
   infos (snd (startup env m)) = []).
Proof.
  intros Hok Hc Hd. unfold chainOf, currentController, legacyController.
  unfold_manager; step_manager. rewrite !Hok. step_manager.
  destruct (Enabled env ManagedClusterAutoApproval); step_manager;
    rewrite Hc; step_manager; rewrite Hd; step_manager;
    destruct v1, v1beta1; step_manager;
    destruct (Enabled env DefaultClusterSet); step_manager; cbn;
    (split; [reflexivity|]); (split; [reflexivity|]);
    split; intros H; try (split; reflexivity);
    try (destruct H as [H1 H2]; discriminate);
    destruct H as [H|H]; discriminate H.
Qed.

Lemma compat_enabled_selection_witness :
  IsCSRSupported noSchemaCluster 0 = Supported false false /\
  fst (startup noSchemaCluster operators) = Return tt /\
  approving (snd (startup noSchemaCluster operators))
    = [currentController (chainOf noSchemaCluster operators)].
Proof.
  split; [reflexivity|].
  destruct (compat_enabled_selection noSchemaCluster operators false false)
    as (Hr & _ & _ & Hcur);
    [apply clientsOK_cluster | reflexivity | reflexivity |].
  split; [exact Hr|]. apply Hcur. right. reflexivity.
Defined.

(** X8.  With working clients the manager returns an error in one case
    only: the compatibility gate is enabled and the discovery call
    failed; the error returned is that failure wrapped. *)
Theorem startup_fails_iff env m e :
  clientsOK env ->
  fst (startup env m) = Fail e <->
  Enabled env V1beta1CSRAPICompatibility = true /\
  exists err,
    IsCSRSupported env 0 = DiscoveryFailed err /\
    e = Wrapf err "failed CSR api discovery".
Proof.
  intros Hok. unfold_manager; step_manager. rewrite !Hok. step_manager.
  destruct (Enabled env ManagedClusterAutoApproval); step_manager;
    destruct (Enabled env V1beta1CSRAPICompatibility); step_manager;
    try destruct (IsCSRSupported env 0) as [[] []|err0]; step_manager;
    destruct (Enabled env DefaultClusterSet); step_manager; cbn;
    split;
    try (intros Hr; discriminate Hr);
    try (intros [Hg _]; discriminate Hg);
    try (intros [_ (err & Hd & _)]; discriminate Hd).
  all: try (intros Hr; injection Hr as <-; split; [reflexivity|];
            eexists; split; reflexivity).
  all: intros [_ (err & Hd & ->)]; injection Hd as ->; reflexivity.
Qed.

Lemma startup_fails_iff_witness :
  fst (startup flakyCluster operators)
    = Fail (Wrapf (New "connection refused") "failed CSR api discovery").
Proof.
  apply (startup_fails_iff flakyCluster operators
           (Wrapf (New "connection refused") "failed CSR api discovery")).
  - apply clientsOK_cluster.
  - split; [reflexivity|]. eexists. split; reflexivity.
Defined.

(** X9.  Every approving controller the manager builds is of one schema
    throughout: its informer and its lister are those of its request
    type, and its approver is the v1 approver exactly for the v1 type. *)
Theorem approving_controller_one_schema env m :
  Forall (fun c =>
            csr.csrInformer c = csr.csrType c /\
            csr.csrLister c = csr.csrType c /\
            (csr.csrApprover c = csr.NewCSRV1Approver <->
             csr.csrType c = csr.V1))
    (approving (snd (startup env m))).
Proof.
  run_manager env; cbn; repeat constructor; intros H; discriminate H.
Qed.

(** ** Returning *)

(** X10.  The manager never calls [Run] on a nil controller, and it
    returns nil exactly when the last thing it did was to wait for the
    context to end. *)
Theorem returns_after_context_done env m :
  fst (startup env m) <> Panic /\
  (fst (startup env m) = Return tt <->
   last (snd (startup env m)) = Some EvCtxDone).
Proof.
  split.
  - run_manager env; cbn; discriminate.
  - run_manager env; cbn; split; intros H; try reflexivity; discriminate H.
Qed.

(** ** Order *)

Lemma allBefore_spec p q tr :
  allBefore p q tr = true ->
  forall i j e1 e2,
    tr !! i = Some e1 -> tr !! j = Some e2 ->
    q e1 = true -> p e2 = true -> (j <= i)%nat.
Proof.
  induction tr as [|e tr IH]; intros Hall i j e1 e2 Hi Hj Hq Hp.
  { rewrite lookup_nil in Hi. discriminate Hi. }
  cbn [allBefore] in Hall. apply andb_true_iff in Hall as [Hhere Hrest].
  destruct i as [|i], j as [|j]; cbn in Hi, Hj; try lia.
  - injection Hi as ->. rewrite Hq in Hhere.
    rewrite forallb_forall in Hhere.
    assert (Hin : In e2 tr)
      by (apply list_elem_of_In, list_elem_of_lookup; eauto).
    specialize (Hhere e2 Hin). rewrite Hp in Hhere. discriminate Hhere.
  - specialize (IH Hrest i j e1 e2 Hi Hj Hq Hp). lia.
Qed.

Lemma manager_order env m :
  allBefore isWiring (fun e => isGoStart e || isGoRun e)
    (snd (startup env m)) = true /\
  allBefore isGoStart isGoRun (snd (startup env m)) = true.
Proof. run_manager env; cbn; split; reflexivity. Qed.

(** X11.  Construction comes before anything runs: in the trace of the
    manager every client, informer factory and controller is built, and
    the cluster is asked, before the first goroutine is started, and
    every informer factory is started before the first controller. *)
Theorem wiring_precedes_starting env m i j e1 e2 :
  snd (startup env m) !! i = Some e1 ->
  snd (startup env m) !! j = Some e2 ->
  (isGoStart e1 || isGoRun e1 = true -> isWiring e2 = true -> (j < i)%nat) /\
  (isGoRun e1 = true -> isGoStart e2 = true -> (j < i)%nat).
Proof.
  intros Hi Hj. destruct (manager_order env m) as [Hwire Hstart].
  split; intros H1 H2.
  - pose proof (allBefore_spec _ _ _ Hwire i j e1 e2 Hi Hj H1 H2) as Hle.
    destruct (decide (j = i)) as [->|Hne]; [|lia].
    rewrite Hi in Hj. injection Hj as ->.
    destruct e2; discriminate.
  - pose proof (allBefore_spec _ _ _ Hstart i j e1 e2 Hi Hj H1 H2) as Hle.
    destruct (decide (j = i)) as [->|Hne]; [|lia].
    rewrite Hi in Hj. injection Hj as ->.
    destruct e2; discriminate.
Qed.

Lemma wiring_precedes_starting_witness :
  snd (startup bothSchemasCluster operators) !! 24%nat
    = Some (EvGoStart ClusterInformers) /\
  snd (startup bothSchemasCluster operators) !! 12%nat
    = Some EvIsCSRSupported /\
  (12 < 24)%nat.
Proof.
  split; [reflexivity|]. split; [reflexivity|].
  destruct (wiring_precedes_starting bothSchemasCluster operators 24 12
              (EvGoStart ClusterInformers) EvIsCSRSupported) as [Hwire _];
    [reflexivity | reflexivity |].
  apply Hwire; reflexivity.
Defined.
